(** * ms-users: the Redis-search filter compiler and the JWT audience list

    A shallow embedding of
    - [src/utils/redis-search-stack/normalize-filter-prop.js]
      ([normalizeFilterProp]),
    - the query builder of the same directory ([buildSearchQuery] with its
      two builder tables),
    - [src/utils/jwt.js] ([getAudience] and the audience defaulting of
      [login]),
    - the report of the account initialisers of the service class
      ([reportStats]),
    together with the properties the specification states about them and
    further properties of the code. *)

From Stdlib Require Import ZArith String Ascii List Bool Lia DecimalString.
From stdpp Require Import base option strings gmap.
Import ListNotations.

Set Warnings "-register-all".
Local Open Scope string_scope.
Local Open Scope list_scope.

(** ** JavaScript values and outcomes *)

Module Js.

(** Numbers.  The compiler never computes with a number, it only renders
    it; finite numbers are represented by the integers, which the runtime
    prints in decimal (below 10^21). *)
Inductive number : Type :=
| NaN
| Infinity
| NegInfinity
| Int (z : Z).

(** Data values as they arrive in a request: the JSON fragment of
    JavaScript plus [undefined].  An object is the list of its own
    properties, under pairwise different names, in insertion order. *)
Inductive value : Type :=
| VUndefined
| VNull
| VBool (b : bool)
| VNum (n : number)
| VStr (s : string)
| VArr (items : list value)
| VObj (props : list (string * value)).

(** Error kinds: the runtime's [TypeError] and the kinds of the error
    table of the specification. *)
Inductive exn : Type :=
| TypeError
| ValidationError (msg : string)
| IndexNotRegistered (audience : string)
| QueryExecutionError
| InternalError.

(** Outcome of an evaluation: a value, a thrown error, or a built-in
    function of the runtime (a member of [Object.prototype] or
    [String.prototype]) that the evaluation reads or calls and that is not
    followed any further. *)
Inductive result (A : Type) : Type :=
| Ok (a : A)
| Throw (e : exn)
| Builtin (name : string).

Arguments Ok {A} a.
Arguments Throw {A} e.
Arguments Builtin {A} name.

Definition bind {A B : Type} (r : result A) (k : A -> result B) : result B :=
  match r with
  | Ok a => k a
  | Throw e => Throw e
  | Builtin name => Builtin name
  end.

Definition is_validation_error {A : Type} (r : result A) : bool :=
  match r with Throw (ValidationError _) => true | _ => false end.

(** [Number.prototype.toString] on the numbers above. *)
Definition number_to_string (n : number) : string :=
  match n with
  | NaN => "NaN"
  | Infinity => "Infinity"
  | NegInfinity => "-Infinity"
  | Int z => NilZero.string_of_int (Z.to_int z)
  end.

(** Own property of an object, [None] when absent. *)
Fixpoint own_prop {A : Type} (key : string) (props : list (string * A)) : option A :=
  match props with
  | [] => None
  | (k, v) :: rest => if String.eqb k key then Some v else own_prop key rest
  end.

(** Separator-joined rendering of array items, as [Array.prototype.join]
    does it: [undefined] and [null] items render as the empty text, every
    other item through [str]. *)
Section Join.
Variable str : value -> result string.
Variable sep : string.

Definition join_item (x : value) : result string :=
  match x with
  | VUndefined | VNull => Ok EmptyString
  | _ => str x
  end.

Fixpoint join_with (items : list value) : result string :=
  match items with
  | [] => Ok EmptyString
  | x :: rest =>
      match rest with
      | [] => join_item x
      | _ => bind (join_item x) (fun s =>
             bind (join_with rest) (fun r => Ok (s +:+ sep +:+ r)))
      end
  end.
End Join.

(** The abstract operation ToString, which is also the coercion of a
    computed property key.  A data object has no callable [toString] of its
    own; when an own property shadows the inherited one the conversion
    throws. *)
Fixpoint to_string (v : value) : result string :=
  match v with
  | VUndefined => Ok "undefined"
  | VNull => Ok "null"
  | VBool b => Ok (if b then "true" else "false")
  | VNum n => Ok (number_to_string n)
  | VStr s => Ok s
  | VArr items => join_with to_string "," items
  | VObj props =>
      match own_prop "toString" props with
      | Some _ => Throw TypeError
      | None => Ok "[object Object]"
      end
  end.

(** The property names this code reads from a criterion. *)
Inductive key : Type := Kfields | Kgte | Klte | Keq | Kne | Kmatch.

Definition key_name (k : key) : string :=
  match k with
  | Kfields => "fields"
  | Kgte => "gte"
  | Klte => "lte"
  | Keq => "eq"
  | Kne => "ne"
  | Kmatch => "match"
  end.

(** Property read [v.k].  Reading from [undefined] or [null] throws; an
    object yields its own property or [undefined]; of the primitives only a
    string inherits one of the names above ([String.prototype.match]). *)
Definition get_prop (v : value) (k : key) : result value :=
  match v with
  | VUndefined | VNull => Throw TypeError
  | VObj props =>
      match own_prop (key_name k) props with
      | Some x => Ok x
      | None => Ok VUndefined
      end
  | VStr _ =>
      match k with
      | Kmatch => Builtin "String.prototype.match"
      | _ => Ok VUndefined
      end
  | _ => Ok VUndefined
  end.

(** Method call [v.join(sep)]: only an array has a callable [join]. *)
Definition call_join (v : value) (sep : string) : result string :=
  match v with
  | VArr items => join_with to_string sep items
  | _ => Throw TypeError
  end.

(** A slot of a builder table read under a computed key
    ([table[key]]): an own entry, a function inherited from
    [Object.prototype], the inherited [__proto__] object, or [undefined]. *)
Inductive slot (A : Type) : Type :=
| Own (f : A)
| Native (name : string)
| NotCallable
| Undefined.

Arguments Own {A} f.
Arguments Native {A} name.
Arguments NotCallable {A}.
Arguments Undefined {A}.

Definition object_prototype_functions : list string :=
  [ "constructor"; "hasOwnProperty"; "isPrototypeOf"; "propertyIsEnumerable";
    "toLocaleString"; "toString"; "valueOf";
    "__defineGetter__"; "__defineSetter__"; "__lookupGetter__"; "__lookupSetter__" ].

Definition table_get {A : Type} (table : list (string * A)) (k : string) : slot A :=
  match own_prop k table with
  | Some f => Own f
  | None =>
      if existsb (String.eqb k) object_prototype_functions then Native k
      else if String.eqb k "__proto__" then NotCallable
      else Undefined
  end.

(** Calling what a slot holds. *)
Definition invoke {A B : Type} (s : slot A) (call : A -> result B) : result B :=
  match s with
  | Own f => call f
  | Native name => Builtin name
  | NotCallable | Undefined => Throw TypeError
  end.

End Js.

Export Js.

Notation "'let!' x ':=' r 'in' k" := (bind r (fun x => k))
  (at level 10, x name, r at level 100, k at level 200).

(** ** The expression helpers

    [require('./expressions')]: the syntax constructors of the index
    engine's query language.  The module is an interface of the compiler;
    a call passes the list of its arguments.  The text helpers are applied
    to text only; [numericRange] receives the raw bounds of a criterion. *)
Class Expressions : Type := {
  expression : list string -> string;
  numericRange : list value -> result string;
  paramRef : list string -> string;
  namedField : list string -> string;
  tag : list string -> string;
  negative : list string -> string;
  matchAny : list string -> string
}.

(** ** normalize-filter-prop.js and the query builder *)

Section Compiler.
Context {E : Expressions}.

(** [USERS_ID_FIELD] of [src/constants], which is not part of the sources. *)
Variable USERS_ID_FIELD : string.

Definition normalizeFilterProp (propName : string) (actionTypeOrValue : value)
  : result string :=
  if String.eqb propName "#" then Ok USERS_ID_FIELD
  else if String.eqb propName "#multi" then
    let! fields := get_prop actionTypeOrValue Kfields in
    call_join fields "|"
  else Ok propName.

(** The empty-value literal: a text of two double-quote characters. *)
Definition EMPTY_VALUE : string :=
  let quote := ascii_of_nat 34 in String quote (String quote EmptyString).

(** [(...args) => args.join('_')], applied to texts only. *)
Definition buildParamName (args : list string) : string := String.concat "_" args.

(** [prop.replace(/\|/g, '_')]. *)
Fixpoint normalizePropName (prop : string) : string :=
  match prop with
  | EmptyString => EmptyString
  | String c rest =>
      String (if Ascii.eqb c "|" then "_"%char else c) (normalizePropName rest)
  end.

Definition query_builder : Type := string -> string -> value -> result string.
Definition param_builder : Type := string -> value -> result (list value).

(** The body shared by the [gte] and [lte] entries. *)
Definition range_clause : query_builder := fun _ field expr =>
  let! lo := get_prop expr Kgte in
  let! hi := get_prop expr Klte in
  let! range := numericRange [lo; hi] in
  Ok (expression [field; range]).

Definition searchQueryBuilder : list (string * query_builder) :=
  [ ("gte", range_clause);
    ("lte", range_clause);
    ("exists", fun _ field _ => Ok (negative [expression [field; EMPTY_VALUE]]));
    ("isempty", fun _ field _ => Ok (expression [field; EMPTY_VALUE]));
    ("eq", fun prop field _ =>
       let name := buildParamName ["f"; prop; "eq"] in
       Ok (expression [field; tag [paramRef [name]]]));
    ("ne", fun prop field _ =>
       let name := buildParamName ["f"; prop; "ne"] in
       Ok (negative [expression [field]; tag [paramRef [name]]]));
    ("match", fun prop field _ =>
       let propName := normalizePropName prop in
       let name := buildParamName ["f"; propName; "m"] in
       Ok (expression [field; matchAny [paramRef [name]]])) ].

Definition searchParamBuilder : list (string * param_builder) :=
  [ ("eq", fun prop expr =>
       let name := buildParamName ["f"; prop; "eq"] in
       let! v := get_prop expr Keq in
       Ok [VStr name; v]);
    ("ne", fun prop expr =>
       let name := buildParamName ["f"; prop; "ne"] in
       let! v := get_prop expr Kne in
       Ok [VStr name; v]);
    ("match", fun prop expr =>
       let propName := normalizePropName prop in
       let name := buildParamName ["f"; propName; "m"] in
       let! v := get_prop expr Kmatch in
       Ok [VStr name; v]) ].

(** [buildQuery]: the entry of [searchQueryBuilder] read under [k], called
    with the property name, the field and the criterion. *)
Definition build_query (k propName field : string) (valueOrExpr : value)
  : result string :=
  invoke (table_get searchQueryBuilder k)
         (fun buildQuery => buildQuery propName field valueOrExpr).

(** [buildParams]: the entry of [searchParamBuilder] read under [k],
    called unless it is [undefined], when the parameter list is empty. *)
Definition build_params (k propName : string) (valueOrExpr : value)
  : result (list value) :=
  match table_get searchParamBuilder k with
  | Undefined => Ok []
  | buildParams =>
      invoke buildParams (fun buildParams => buildParams propName valueOrExpr)
  end.

(** The operator path of [buildSearchQuery] once the key of the two table
    reads is known. *)
Definition compile_at (k propName : string) (valueOrExpr : value)
  : result (string * list value) :=
  let field := namedField [propName] in
  let! query := build_query k propName field valueOrExpr in
  let! params := build_params k propName valueOrExpr in
  Ok (query, params).

(** The tables are read under [valueOrExpr] itself, which the runtime
    coerces to a property key. *)
Definition buildSearchQuery (propName : string) (valueOrExpr : value)
  : result (string * list value) :=
  let field := namedField [propName] in
  match valueOrExpr with
  | VStr _ =>
      let pName := buildParamName ["f"; field] in
      let query := expression [field; tag [paramRef [pName]]] in
      let params := [VStr pName; valueOrExpr] in
      Ok (query, params)
  | _ =>
      let! k := to_string valueOrExpr in
      compile_at k propName valueOrExpr
  end.


End Compiler.


(** The key sets the specification admits in a criterion object: one
    recognised operator, or the pair [gte], [lte] in either order. *)
Definition permitted_operator_keys (keys : list string) : bool :=
  match keys with
  | [k] =>
      existsb (String.eqb k) ["eq"; "ne"; "match"; "exists"; "isempty"; "gte"; "lte"]
  | [k1; k2] =>
      (String.eqb k1 "gte" && String.eqb k2 "lte")
      || (String.eqb k1 "lte" && String.eqb k2 "gte")
  | _ => false
  end.

(** The extra argument of the field resolver carries no [fields] array. *)
Definition lacks_fields (extra : value) : bool :=
  match get_prop extra Kfields with
  | Ok (VArr _) => false
  | _ => true
  end.

(** ** The expression helpers, from the specification *)

Module SpecExpressions.

(** Modelled from the spec: a parameter the caller left out interpolates
    as [undefined]. *)
Definition arg (i : nat) (args : list string) : string := nth i args "undefined".

(** Modelled from the spec: one side of a range, the sentinel when the
    bound is absent. *)
Definition bound (sentinel : string) (v : value) : result string :=
  match v with
  | VUndefined => Ok sentinel
  | _ => to_string v
  end.

(** Modelled from the spec: the module [./expressions] is missing from the
    sources.  Its constructors follow the query protocol of the external
    interfaces: a clause is an at-sign, the field, a colon and the value
    expression; tag equality is the dollar-prefixed parameter in braces;
    matching any token is the parameter followed by a star, in parentheses;
    a numeric range is the two bounds in square brackets, with a sentinel
    on an unbounded side; negation prefixes a clause with the negation
    marker.  The marker and the sentinels are those of the index engine,
    [-] and [-inf], [+inf]. *)
#[export] Instance spec_expressions : Expressions := {
  expression args := arg 0 args +:+ ":" +:+ arg 1 args;
  numericRange args :=
    let! lo := bound "-inf" (nth 0 args VUndefined) in
    let! hi := bound "+inf" (nth 1 args VUndefined) in
    Ok ("[" +:+ lo +:+ " " +:+ hi +:+ "]");
  paramRef args := "$" +:+ arg 0 args;
  namedField args := "@" +:+ arg 0 args;
  tag args := "{" +:+ arg 0 args +:+ "}";
  negative args := "-" +:+ arg 0 args;
  matchAny args := "(" +:+ arg 0 args +:+ "*)"
}.

End SpecExpressions.

(** ** Query assembly and listing, from the specification *)

Module ListService.

(** Modelled from the spec: the descriptor of a provisioned index. *)
Record IndexDescriptor : Type := {
  index_audience : string;
  indexedFields : gset string
}.

(** Modelled from the spec: the request of the list action. *)
Record ListRequest : Type := {
  audience : string;
  criteria : string;
  offset : Z;
  limit : Z;
  filter : option (list (string * value))
}.

(** Modelled from the spec: a compiled query, its text and its ordered
    (name, value) bindings. *)
Record CompiledQuery : Type := {
  text : string;
  params : list (string * value)
}.

(** Modelled from the spec: the message of the not-registered error
    contains the audience; its wording is the one the listing test
    matches. *)
Definition not_registered_message (audience : string) : string :=
  "Search index does not registered for " +:+ audience.

(** Modelled from the spec: the index registry is missing from the
    sources.  [resolve(audience)] is a read-only lookup that fails with
    [IndexNotRegistered(audience)] and never creates an index. *)
Definition resolve (registry : gmap string IndexDescriptor) (audience : string)
  : result IndexDescriptor :=
  match registry !! audience with
  | Some index => Ok index
  | None => Throw (IndexNotRegistered audience)
  end.

Section Listing.
Context {E : Expressions}.

(** Modelled from the spec: the bindings of one compiled criterion as
    (name, value) pairs. *)
Definition bindings (params : list value) : list (string * value) :=
  match params with
  | [VStr name; v] => [(name, v)]
  | _ => []
  end.

(** Modelled from the spec: a parameter name already bound. *)
Definition collides (name : string) (ps : list (string * value)) : bool :=
  existsb (fun p => String.eqb (fst p) name) ps.

(** Modelled from the spec: the query assembler is missing from the
    sources.  It walks the filter mapping in insertion order, compiles each
    criterion with [buildSearchQuery], joins the clauses by implicit
    conjunction, merges the parameter lists in encounter order, and fails
    with an [InternalError] on a repeated parameter name. *)
Fixpoint assemble_from (acc : CompiledQuery) (filterMap : list (string * value))
  : result CompiledQuery :=
  match filterMap with
  | [] => Ok acc
  | (propName, criterion) :: rest =>
      let! compiled := buildSearchQuery propName criterion in
      let ps := bindings (snd compiled) in
      if existsb (fun p => collides (fst p) (params acc)) ps
      then Throw InternalError
      else
        let clause :=
          match text acc with
          | EmptyString => fst compiled
          | t => t +:+ " " +:+ fst compiled
          end in
        assemble_from {| text := clause; params := params acc ++ ps |} rest
  end.

(** Modelled from the spec: [assemble]; an empty mapping is the match-all
    query without parameters. *)
Definition assemble (filterMap : list (string * value)) : result CompiledQuery :=
  match filterMap with
  | [] => Ok {| text := "*"; params := [] |}
  | _ => assemble_from {| text := EmptyString; params := [] |} filterMap
  end.

(** The collaborators of the listing: the page limit, the index engine and
    the metadata store. *)
Variable metadata : Type.
Variable MAX_LIMIT : Z.
Variable execute :
  IndexDescriptor -> CompiledQuery -> Z -> Z -> string -> result (list string).
Variable fetch : string -> list string -> metadata.

(** Modelled from the spec: the pagination check of the first step. *)
Definition valid_pagination (request : ListRequest) : bool :=
  (0 <=? offset request)%Z && (0 <? limit request)%Z
  && (limit request <=? MAX_LIMIT)%Z.

(** Modelled from the spec: the list action ([list], here [list_users]) is
    missing from the sources, only its test is there.  The six steps of the
    listing: validate the pagination (the error carries no message in the
    specification), resolve the index, assemble the query, execute it (an
    engine failure gives the empty result), hydrate, return. *)
Definition list_users (registry : gmap string IndexDescriptor) (request : ListRequest)
  : result (list (string * metadata)) :=
  if negb (valid_pagination request)
  then Throw (ValidationError EmptyString)
  else
    let! index := resolve registry (audience request) in
    let! compiled := assemble (default [] (filter request)) in
    let ids :=
      match execute index compiled (offset request) (limit request)
                    (criteria request) with
      | Ok ids => ids
      | _ => []
      end in
    Ok (map (fun id => (id, fetch id [audience request])) ids).

End Listing.

End ListService.

(** ** jwt.js: the audiences of the metadata lookup *)

Module Jwt.

Definition getAudience (defaultAudience audience : string) : list string :=
  if negb (String.eqb audience defaultAudience)
  then [audience; defaultAudience]
  else [audience].

(** [_audience || defaultAudience]: an absent or empty audience is falsy. *)
Definition or_default (_audience : option string) (defaultAudience : string) : string :=
  match _audience with
  | None | Some EmptyString => defaultAudience
  | Some a => a
  end.

(** The audiences [login] passes to [getMetadata]. *)
Definition login_metadataAudience (defaultAudience : string)
  (_audience : option string) : list string :=
  let audience := or_default _audience defaultAudience in
  getAudience defaultAudience audience.

(** The audiences [refresh] passes to [getMetadata]. *)
Definition refresh_metadataAudience (defaultAudience audience : string)
  : list string :=
  getAudience defaultAudience audience.

End Jwt.

(** The first character of a rendered number: a digit, the sign, or the
    initial of [NaN] and [Infinity]. *)
Definition numeric_head (s : string) : bool :=
  match s with
  | EmptyString => false
  | String c _ =>
      existsb (Ascii.eqb c)
        (list_ascii_of_string "0123456789-NI")
  end.

(** The text holds a comma, the separator of an array rendered as a key. *)
Fixpoint has_comma (s : string) : bool :=
  match s with
  | EmptyString => false
  | String c rest => Ascii.eqb c "," || has_comma rest
  end.

(** ToString of a data value gives a text or throws a [TypeError]. *)
Definition text_or_type_error (r : result string) : Prop :=
  (exists s, r = Ok s) \/ r = Throw TypeError.

(** ** The service class: the report of the account initialisers *)

Module Users.

(** A rejection reason: the error object [register] rejects with, of which
    the report reads [statusCode] and [stack]. *)
Record reason : Type := {
  statusCode : value;
  stack : value
}.

(** What [.reflect()] gives for one registration. *)
Inductive inspection : Type :=
| Fulfilled (v : value)
| Rejected (r : reason).

Inductive log_entry : Type :=
| Info (format : string) (args : list nat)
| Warn (message : value).

(** The two mutable locals of [reportStats]. *)
Record counters : Type := {
  registered : nat;
  errors : list reason
}.

(** The body of [users.forEach]. *)
Definition count_user (c : counters) (user : inspection) : counters :=
  match user with
  | Fulfilled _ => {| registered := S (registered c); errors := errors c |}
  | Rejected r => {| registered := registered c; errors := errors c ++ [r] |}
  end.

(** [err.statusCode !== 403]. *)
Definition not_403 (v : value) : bool :=
  match v with
  | VNum (Int 403) => false
  | _ => true
  end.

(** The body of [errors.forEach], on the log written so far. *)
Definition warn_error (log : list log_entry) (err : reason) : list log_entry :=
  if not_403 (statusCode err) then log ++ [Warn (stack err)] else log.

(** [reportStats(users)], as the log it writes; [format] is the text of the
    info line, which is all the two initialisers differ in. *)
Definition reportStats (format : string) (users : list inspection) : list log_entry :=
  let totalAccounts := length users in
  let counted := fold_left count_user users {| registered := 0; errors := [] |} in
  let log := [Info format [registered counted; totalAccounts; length (errors counted)]] in
  fold_left warn_error (errors counted) log.

(** The reasons of the rejected registrations, in order. *)
Definition rejections (users : list inspection) : list reason :=
  flat_map (fun user => match user with Rejected r => [r] | Fulfilled _ => [] end)
           users.

(** The number of fulfilled registrations. *)
Definition fulfilled (users : list inspection) : nat :=
  length (List.filter (fun user => match user with Fulfilled _ => true
                                              | Rejected _ => false end) users).

Definition initAdminAccounts_report : list inspection -> list log_entry :=
  reportStats "Registered admins %d/%d. Errors: %d".

Definition initFakeAccounts_report : list inspection -> list log_entry :=
  reportStats "Registered fake users %d/%d. Errors: %d".

End Users.

(** * Properties *)

(** ** The field resolver *)

Section FieldResolver.
Variable USERS_ID_FIELD : string.

Lemma join_with_names (sep : string) (names : list string) :
  join_with to_string sep (map VStr names) = Ok (String.concat sep names).
Proof.
  induction names as [|n rest IH]; [reflexivity|].
  destruct rest as [|m rest]; [reflexivity|].
  change (join_with to_string sep (map VStr (n :: m :: rest)))
    with (bind (Ok n) (fun s =>
          bind (join_with to_string sep (map VStr (m :: rest)))
               (fun r => Ok (s +:+ sep +:+ r)))).
  rewrite IH. reflexivity.
Qed.

(** C6: the resolver maps [#] to the identity field constant, maps [#multi]
    with a supplied sequence of field names to the names joined by the
    union separator, and returns every other property name unchanged. *)
Theorem normalizeFilterProp_resolves (propName : string) (extra : value) :
  (propName = "#" ->
     normalizeFilterProp USERS_ID_FIELD propName extra = Ok USERS_ID_FIELD)
  /\ (propName = "#multi" ->
      forall names : list string,
        get_prop extra Kfields = Ok (VArr (map VStr names)) ->
        normalizeFilterProp USERS_ID_FIELD propName extra
        = Ok (String.concat "|" names))
  /\ (propName <> "#" -> propName <> "#multi" ->
      normalizeFilterProp USERS_ID_FIELD propName extra = Ok propName).
Proof.
  unfold normalizeFilterProp. repeat split.
  - intros ->. reflexivity.
  - intros -> names Hfields. cbn. rewrite Hfields. cbn.
    apply join_with_names.
  - intros Hid Hmulti.
    destruct (String.eqb_spec propName "#"); [contradiction|].
    destruct (String.eqb_spec propName "#multi"); [contradiction|].
    reflexivity.
Qed.

(** C7, as the code has it: resolving [#multi] with an extra argument that
    carries no [fields] array fails with the runtime's [TypeError]. *)
Theorem normalizeFilterProp_multi_without_fields (extra : value) :
  lacks_fields extra = true ->
  normalizeFilterProp USERS_ID_FIELD "#multi" extra = Throw TypeError.
Proof.
  unfold lacks_fields, normalizeFilterProp. cbn.
  destruct extra as [| | b | n | s | items | props]; cbn; try reflexivity.
  destruct (own_prop "fields" props) as [[| | b | n | s | items | ps]|];
    cbn; try reflexivity.
  discriminate.
Qed.

End FieldResolver.

Lemma normalizeFilterProp_resolves_witness :
  normalizeFilterProp "id" "#" VUndefined = Ok "id"
  /\ normalizeFilterProp "id" "#multi"
       (VObj [("fields", VArr [VStr "firstName"; VStr "lastName"]);
              ("match", VStr "Joe")])
     = Ok "firstName|lastName"
  /\ normalizeFilterProp "id" "username" (VStr "ann") = Ok "username".
Proof.
  split; [|split].
  - exact (proj1 (normalizeFilterProp_resolves "id" "#" VUndefined) eq_refl).
  - exact (proj1 (proj2 (normalizeFilterProp_resolves "id" "#multi"
             (VObj [("fields", VArr [VStr "firstName"; VStr "lastName"]);
                    ("match", VStr "Joe")])))
           eq_refl ["firstName"; "lastName"] eq_refl).
  - apply (proj2 (proj2 (normalizeFilterProp_resolves "id" "username" (VStr "ann"))));
      discriminate.
Defined.

(** C7, as stated, fails: a [#multi] criterion without [fields] raises a
    [TypeError], not [ValidationError("malformed multi-field filter")]. *)
Lemma normalizeFilterProp_multi_not_validation :
  lacks_fields (VObj [("match", VStr "Joe")]) = true
  /\ normalizeFilterProp "id" "#multi" (VObj [("match", VStr "Joe")])
     = Throw TypeError
  /\ normalizeFilterProp "id" "#multi" (VObj [("match", VStr "Joe")])
     <> Throw (ValidationError "malformed multi-field filter").
Proof. split; [|split]; [reflexivity | reflexivity | discriminate]. Qed.

Lemma normalizeFilterProp_multi_without_fields_witness :
  lacks_fields (VObj [("match", VStr "Joe")]) = true
  /\ normalizeFilterProp "id" "#multi" (VObj [("match", VStr "Joe")])
     = Throw TypeError.
Proof.
  split; [reflexivity|].
  apply (normalizeFilterProp_multi_without_fields "id"
           (VObj [("match", VStr "Joe")])).
  reflexivity.
Defined.

(** ** The criterion compiler, for any expression helpers *)

Section CriterionCompiler.
Context {E : Expressions}.

(** The key a data object is coerced to is not a key of either table. *)
Lemma object_key_outcome (props : list (string * value)) :
  to_string (VObj props) = Throw TypeError
  \/ to_string (VObj props) = Ok "[object Object]".
Proof. cbn. destruct (own_prop "toString" props); [left | right]; reflexivity. Qed.

Lemma compile_at_object_key (propName : string) (valueOrExpr : value) :
  compile_at "[object Object]" propName valueOrExpr = Throw TypeError.
Proof. reflexivity. Qed.

(** Every criterion object ends in the same [TypeError]. *)
Lemma buildSearchQuery_object (propName : string) (props : list (string * value)) :
  buildSearchQuery propName (VObj props) = Throw TypeError.
Proof.
  unfold buildSearchQuery.
  destruct (object_key_outcome props) as [-> | ->]; reflexivity.
Qed.

(** C1, as the code has it: a criterion object whose keys are not a
    permitted operator key or combination fails to compile, with the
    [TypeError] of calling a builder that is not there. *)
Theorem buildSearchQuery_unsupported_operator
  (propName : string) (props : list (string * value)) :
  permitted_operator_keys (map fst props) = false ->
  buildSearchQuery propName (VObj props) = Throw TypeError.
Proof. intros _. apply buildSearchQuery_object. Qed.

(** The clause and the binding the [ne] entries of the two tables build. *)
Lemma compile_at_ne (propName : string) (props : list (string * value)) :
  compile_at "ne" propName (VObj props)
  = Ok (negative [ expression [namedField [propName]];
                   tag [paramRef [buildParamName ["f"; propName; "ne"]]] ],
        [ VStr (buildParamName ["f"; propName; "ne"]);
          default VUndefined (own_prop "ne" props) ]).
Proof.
  unfold compile_at, build_query, build_params. cbn.
  destruct (own_prop "ne" props); reflexivity.
Qed.

(** C3: for a plain string value the clause depends on the property name
    only; the value occurs in the binding of the parameter named from the
    field, and nowhere in the clause. *)
Theorem buildSearchQuery_value_not_in_clause (propName v1 v2 : string) :
  exists clause name : string,
    name = buildParamName ["f"; namedField [propName]]
    /\ clause = expression [namedField [propName]; tag [paramRef [name]]]
    /\ buildSearchQuery propName (VStr v1) = Ok (clause, [VStr name; VStr v1])
    /\ buildSearchQuery propName (VStr v2) = Ok (clause, [VStr name; VStr v2]).
Proof. do 2 eexists. repeat split. Qed.

(** C5, as the code has it: compiling a range criterion under [gte] or
    [lte] hands both bounds, as supplied, to [numericRange] and embeds what
    it returns; the builder checks neither bound and binds no parameter. *)
Theorem range_bounds_embedded_unchecked
  (propName : string) (props : list (string * value)) :
  let lo := default VUndefined (own_prop "gte" props) in
  let hi := default VUndefined (own_prop "lte" props) in
  let compiled :=
    let! range := numericRange [lo; hi] in
    Ok (expression [namedField [propName]; range], []) in
  compile_at "gte" propName (VObj props) = compiled
  /\ compile_at "lte" propName (VObj props) = compiled.
Proof.
  unfold compile_at, build_query, build_params. cbn.
  unfold range_clause, get_prop. cbn.
  destruct (own_prop "gte" props), (own_prop "lte" props); cbn;
    split; destruct (numericRange _); reflexivity.
Qed.

(** C8: the clause compiled under [exists] is the negation wrapper applied
    to the clause compiled under [isempty] for the same field, both against
    the empty-value literal, and neither binds a parameter. *)
Theorem exists_negates_isempty (propName : string) (expr : value) :
  exists clause : string,
    clause = expression [namedField [propName]; EMPTY_VALUE]
    /\ compile_at "isempty" propName expr = Ok (clause, [])
    /\ compile_at "exists" propName expr = Ok (negative [clause], []).
Proof. eexists. repeat split. Qed.

End CriterionCompiler.

(** ** The criterion compiler under the helpers of the specification *)

Section SpecCompiler.
Import SpecExpressions.

(** The clause and the binding of the [match] entries are those the listing
    test records for [firstName match Johhny]. *)
Example match_entries_agree_with_test :
  compile_at "match" "firstName" (VObj [("match", VStr "Johhny")])
  = Ok ("@firstName:($f_firstName_m*)", [VStr "f_firstName_m"; VStr "Johhny"]).
Proof. reflexivity. Qed.

(** The same criterion handed to [buildSearchQuery]: the tables are read
    under the object, not under [match]. *)
Example buildSearchQuery_match_object :
  buildSearchQuery "firstName" (VObj [("match", VStr "Johhny")]) = Throw TypeError.
Proof. reflexivity. Qed.

(** An array is coerced to the join of its items, which can be a key. *)
Example buildSearchQuery_array_key :
  buildSearchQuery "firstName" (VArr [VStr "match"])
  = Ok ("@firstName:($f_firstName_m*)", [VStr "f_firstName_m"; VUndefined]).
Proof. reflexivity. Qed.

(** C1, as stated, fails: an unsupported operator key raises a [TypeError],
    not [ValidationError("unsupported filter operator")]. *)
Lemma unsupported_operator_not_validation :
  permitted_operator_keys (map fst [("foo", VStr "bar")]) = false
  /\ buildSearchQuery "username" (VObj [("foo", VStr "bar")]) = Throw TypeError
  /\ buildSearchQuery "username" (VObj [("foo", VStr "bar")])
     <> Throw (ValidationError "unsupported filter operator").
Proof. split; [|split]; [reflexivity | reflexivity | discriminate]. Qed.

Lemma buildSearchQuery_unsupported_operator_witness :
  permitted_operator_keys (map fst [("foo", VStr "bar")]) = false
  /\ buildSearchQuery "username" (VObj [("foo", VStr "bar")]) = Throw TypeError.
Proof.
  split; [reflexivity|].
  apply (buildSearchQuery_unsupported_operator "username" [("foo", VStr "bar")]).
  reflexivity.
Defined.

(** C2: at the criterion [ne("gmail")] on [username] the clause is the
    negation of an expression without a value; the tag-wrapped placeholder
    is handed to the negation wrapper as a second argument and does not
    reach the clause, which differs from the negated tag equality. *)
Theorem ne_clause_drops_placeholder :
  compile_at "ne" "username" (VObj [("ne", VStr "gmail")])
  = Ok ("-@username:undefined", [VStr "f_username_ne"; VStr "gmail"])
  /\ negative [expression [namedField ["username"];
                           tag [paramRef [buildParamName ["f"; "username"; "ne"]]]]]
     = "-@username:{$f_username_ne}"
  /\ "-@username:undefined" <> "-@username:{$f_username_ne}".
Proof. split; [|split]; [reflexivity | reflexivity | discriminate]. Qed.

(** C5, as stated, fails: a bound that is not a finite number is embedded
    in the clause and no [ValidationError] is raised. *)
Lemma range_bound_not_validated :
  compile_at "gte" "age" (VObj [("gte", VNum NaN)]) = Ok ("@age:[NaN +inf]", [])
  /\ compile_at "lte" "age" (VObj [("lte", VStr "1] | @role:[0 1")])
     = Ok ("@age:[-inf 1] | @role:[0 1]", [])
  /\ is_validation_error (compile_at "gte" "age" (VObj [("gte", VNum NaN)])) = false
  /\ is_validation_error (buildSearchQuery "age" (VObj [("gte", VNum NaN)])) = false.
Proof. repeat split. Qed.

End SpecCompiler.

(** ** Parameter names *)

Section ParamNames.
Import SpecExpressions.

Lemma append_cons (c : ascii) (a b : string) :
  String c a +:+ b = String c (a +:+ b).
Proof. reflexivity. Qed.

Lemma append_empty_r (a : string) : a +:+ EmptyString = a.
Proof.
  induction a as [|c a IH]; [reflexivity|].
  rewrite append_cons. now rewrite IH.
Qed.

Lemma length_append (a b : string) :
  String.length (a +:+ b) = String.length a + String.length b.
Proof.
  induction a as [|c a IH]; [reflexivity|].
  rewrite append_cons. cbn. now rewrite IH.
Qed.

(** Two texts with tails of one length agree part by part. *)
Lemma append_tail_inj (a b x y : string) :
  String.length x = String.length y -> a +:+ x = b +:+ y -> a = b /\ x = y.
Proof.
  revert b. induction a as [|c a IH]; intros [|d b] Hlen Heq.
  - now split.
  - change (x = String d (b +:+ y)) in Heq. subst x.
    cbn in Hlen. rewrite length_append in Hlen. lia.
  - change (String c (a +:+ x) = y) in Heq. subst y.
    cbn in Hlen. rewrite length_append in Hlen. lia.
  - rewrite !append_cons in Heq. injection Heq as -> Heq.
    destruct (IH b Hlen Heq) as [-> ->]. now split.
Qed.

Lemma append_assoc (a b c : string) : (a +:+ b) +:+ c = a +:+ (b +:+ c).
Proof.
  induction a as [|x a IH]; [reflexivity|].
  rewrite !append_cons. now rewrite IH.
Qed.

Lemma suffix_neq (a b x y : string) :
  String.length x = String.length y -> x <> y -> a +:+ x <> b +:+ y.
Proof. intros Hlen Hne Heq. now destruct (append_tail_inj a b x y Hlen Heq). Qed.

Lemma suffix_inj (a b x : string) : a +:+ x = b +:+ x -> a = b.
Proof. intros Heq. now destruct (append_tail_inj a b x x eq_refl Heq). Qed.

Lemma long_suffix_neq (a b x y : string) :
  String.length x = String.length y -> x <> y ->
  a +:+ ("_" +:+ x) <> b +:+ y.
Proof. rewrite <- (append_assoc a "_" x). apply suffix_neq. Qed.






End ParamNames.

(** ** Listing against a missing index *)

Section MissingIndex.
Import ListService.
Context {E : Expressions}.
Variable metadata : Type.
Variable MAX_LIMIT : Z.
Variable execute :
  IndexDescriptor -> CompiledQuery -> Z -> Z -> string -> result (list string).
Variable fetch : string -> list string -> metadata.

(** C9: a list request for an audience without a provisioned index fails
    with the not-registered error (no result, empty or otherwise, is
    returned), and the message of the error contains the audience of the
    request. *)
Theorem list_users_index_not_registered
  (registry : gmap string IndexDescriptor) (request : ListRequest) :
  valid_pagination MAX_LIMIT request = true ->
  registry !! audience request = None ->
  list_users metadata MAX_LIMIT execute fetch registry request
  = Throw (IndexNotRegistered (audience request))
  /\ exists before after : string,
       not_registered_message (audience request)
       = before +:+ audience request +:+ after.
Proof.
  intros Hpage Hmissing. split.
  - unfold list_users, resolve. rewrite Hpage, Hmissing. reflexivity.
  - exists "Search index does not registered for ", EmptyString.
    unfold not_registered_message. now rewrite append_empty_r.
Qed.

End MissingIndex.

Lemma list_users_index_not_registered_witness :
  let registry : gmap string ListService.IndexDescriptor :=
    {[ "*.localhost" :=
         {| ListService.index_audience := "*.localhost";
            ListService.indexedFields := {[ "username" ]} |} ]} in
  let request :=
    {| ListService.audience := "not-existing-audience";
       ListService.criteria := "username";
       ListService.offset := 0;
       ListService.limit := 10;
       ListService.filter := None |} in
  ListService.list_users (E := SpecExpressions.spec_expressions) unit 100
    (fun _ _ _ _ _ => Ok []) (fun _ _ => tt) registry request
  = Throw (IndexNotRegistered "not-existing-audience").
Proof.
  intros registry request.
  apply (list_users_index_not_registered (E := SpecExpressions.spec_expressions)
           unit 100 (fun _ _ _ _ _ => Ok []) (fun _ _ => tt) registry request).
  - reflexivity.
  - vm_compute. reflexivity.
Defined.

(** ** The audiences of the metadata lookup *)

Section Audience.
Import Jwt.

(** C10: the audience list is [[a]] when the requested audience is the
    default one and [[a; d]] otherwise; it contains the requested and the
    default audience and repeats neither. *)
Theorem getAudience_list (d a : string) :
  getAudience d a = (if String.eqb a d then [a] else [a; d])
  /\ a ∈ getAudience d a
  /\ d ∈ getAudience d a
  /\ NoDup (getAudience d a).
Proof.
  unfold getAudience. destruct (String.eqb_spec a d) as [-> | Hne]; cbn.
  - split; [reflexivity|].
    split; [apply list_elem_of_here|].
    split; [apply list_elem_of_here|].
    apply NoDup_singleton.
  - split; [reflexivity|].
    split; [apply list_elem_of_here|].
    split; [apply list_elem_of_further, list_elem_of_here|].
    apply NoDup_cons. split; [|apply NoDup_singleton].
    intros Hin%list_elem_of_singleton. contradiction.
Qed.

(** [login] and [refresh] pass this list, [login] after defaulting an
    absent or empty audience. *)
Lemma metadataAudience_lists (d a : string) (_a : option string) :
  login_metadataAudience d _a = getAudience d (or_default _a d)
  /\ refresh_metadataAudience d a = getAudience d a
  /\ login_metadataAudience d None = [d].
Proof.
  split; [reflexivity | split; [reflexivity|]].
  unfold login_metadataAudience, getAudience. cbn.
  now rewrite String.eqb_refl.
Qed.

End Audience.

(** ** Further properties of the criterion compiler *)

Section OperatorPath.
Context {E : Expressions}.

Lemma own_prop_In {A : Type} (k : string) (table : list (string * A)) (f : A) :
  own_prop k table = Some f -> In k (map fst table).
Proof.
  induction table as [|[k0 f0] rest IH]; cbn; [discriminate|].
  destruct (String.eqb_spec k0 k) as [-> | _]; [now left | right; auto].
Qed.

Lemma own_prop_not_In {A : Type} (k : string) (table : list (string * A)) :
  ~ In k (map fst table) -> own_prop k table = None.
Proof.
  induction table as [|[k0 f0] rest IH]; cbn; [reflexivity|].
  intros Hnot. destruct (String.eqb_spec k0 k) as [-> | _].
  - exfalso. apply Hnot. now left.
  - apply IH. intros Hin. apply Hnot. now right.
Qed.

Lemma invoke_ok {A B : Type} (s : slot A) (call : A -> result B) (b : B) :
  invoke s call = Ok b -> exists f, s = Own f /\ call f = Ok b.
Proof. destruct s; cbn; try discriminate. intros H. now exists f. Qed.

Lemma table_get_own {A : Type} (table : list (string * A)) (k : string) (f : A) :
  table_get table k = Own f -> own_prop k table = Some f.
Proof.
  unfold table_get. destruct (own_prop k table); [now intros [= ->]|].
  destruct (existsb _ _); [discriminate|].
  destruct (String.eqb _ _); discriminate.
Qed.

Lemma build_query_key (k propName field : string) (expr : value) (q : string) :
  build_query k propName field expr = Ok q ->
  In k (map fst searchQueryBuilder).
Proof.
  intros (f & Hslot & _)%invoke_ok.
  now apply table_get_own, own_prop_In in Hslot.
Qed.

Lemma compile_at_key (k propName : string) (expr : value)
  (compiled : string * list value) :
  compile_at k propName expr = Ok compiled ->
  In k (map fst searchQueryBuilder).
Proof.
  unfold compile_at. intros H.
  destruct (build_query k propName _ expr) as [q | e | n] eqn:Hq;
    cbn in H; try discriminate.
  now apply build_query_key in Hq.
Qed.

(** Only the seven operator keys reach a query builder: under every other
    key the operator path fails or ends in a built-in. *)
Theorem compile_at_operator_key
  (k propName : string) (expr : value) (compiled : string * list value) :
  compile_at k propName expr = Ok compiled ->
  In k ["gte"; "lte"; "exists"; "isempty"; "eq"; "ne"; "match"].
Proof. intros H. exact (compile_at_key _ _ _ _ H). Qed.

Lemma compile_at_bindings
  (k propName : string) (expr : value) (clause : string) (params : list value) :
  compile_at k propName expr = Ok (clause, params) ->
  (In k ["gte"; "lte"; "exists"; "isempty"] /\ params = [])
  \/ (k = "eq" /\ exists v, get_prop expr Keq = Ok v
       /\ params = [VStr (buildParamName ["f"; propName; "eq"]); v])
  \/ (k = "ne" /\ exists v, get_prop expr Kne = Ok v
       /\ params = [VStr (buildParamName ["f"; propName; "ne"]); v])
  \/ (k = "match" /\ exists v, get_prop expr Kmatch = Ok v
       /\ params
          = [VStr (buildParamName ["f"; normalizePropName propName; "m"]); v]).
Proof.
  intros H. pose proof (compile_at_key _ _ _ _ H) as Hk.
  unfold compile_at, build_query, build_params in H.
  cbn in Hk.
  destruct Hk as [<- | [<- | [<- | [<- | [<- | [<- | [<- | []]]]]]]];
    cbn -[get_prop range_clause buildParamName normalizePropName] in H.
  - left. destruct (range_clause _ _ _); [|discriminate..].
    injection H as _ <-. split; [cbn; tauto | reflexivity].
  - left. destruct (range_clause _ _ _); [|discriminate..].
    injection H as _ <-. split; [cbn; tauto | reflexivity].
  - left. injection H as _ <-. split; [cbn; tauto | reflexivity].
  - left. injection H as _ <-. split; [cbn; tauto | reflexivity].
  - right; left. split; [reflexivity|].
    destruct (get_prop expr Keq) as [v| |]; [|discriminate..].
    injection H as _ <-. now exists v.
  - right; right; left. split; [reflexivity|].
    destruct (get_prop expr Kne) as [v| |]; [|discriminate..].
    injection H as _ <-. now exists v.
  - right; right; right. split; [reflexivity|].
    destruct (get_prop expr Kmatch) as [v| |]; [|discriminate..].
    injection H as _ <-. now exists v.
Qed.

(** A compiled criterion binds at most one parameter: none under [gte],
    [lte], [exists] and [isempty]; under [eq], [ne] and [match] the pair of
    the operator's parameter name and the property of the criterion that
    carries the operator's name. *)
Theorem compile_at_binding
  (k propName : string) (expr : value) (clause : string) (params : list value) :
  compile_at k propName expr = Ok (clause, params) ->
  (In k ["gte"; "lte"; "exists"; "isempty"] /\ params = [])
  \/ (k = "eq" /\ exists v, get_prop expr Keq = Ok v
       /\ params = [VStr (buildParamName ["f"; propName; "eq"]); v])
  \/ (k = "ne" /\ exists v, get_prop expr Kne = Ok v
       /\ params = [VStr (buildParamName ["f"; propName; "ne"]); v])
  \/ (k = "match" /\ exists v, get_prop expr Kmatch = Ok v
       /\ params
          = [VStr (buildParamName ["f"; normalizePropName propName; "m"]); v]).
Proof. apply compile_at_bindings. Qed.

(** Under [eq] and [match] the placeholder in the clause is the parameter
    that is bound, and the bound value is the operand of the criterion
    ([undefined] when the object has none). *)
Theorem clause_placeholder_is_bound
  (propName : string) (props : list (string * value)) :
  let eq_name := buildParamName ["f"; propName; "eq"] in
  let match_name := buildParamName ["f"; normalizePropName propName; "m"] in
  compile_at "eq" propName (VObj props)
  = Ok (expression [namedField [propName]; tag [paramRef [eq_name]]],
        [VStr eq_name; default VUndefined (own_prop "eq" props)])
  /\ compile_at "match" propName (VObj props)
     = Ok (expression [namedField [propName]; matchAny [paramRef [match_name]]],
           [VStr match_name; default VUndefined (own_prop "match" props)]).
Proof.
  unfold compile_at, build_query, build_params. cbn. split.
  - destruct (own_prop "eq" props); reflexivity.
  - destruct (own_prop "match" props); reflexivity.
Qed.

End OperatorPath.

Section CriterionShapes.
Context {E : Expressions}.

(** The names under which a table read finds something: the seven own
    keys and the members of [Object.prototype]. *)
Lemma compile_at_unknown_key (k propName : string) (expr : value) :
  ~ In k (map fst searchQueryBuilder) ->
  ~ In k object_prototype_functions ->
  k <> "__proto__" ->
  compile_at k propName expr = Throw TypeError.
Proof.
  intros Hown Hproto Hobj. unfold compile_at, build_query, table_get.
  rewrite (own_prop_not_In k searchQueryBuilder Hown).
  destruct (existsb (String.eqb k) object_prototype_functions) eqn:Hex.
  - apply existsb_exists in Hex as (x & Hin & Heq).
    apply String.eqb_eq in Heq. subst x. contradiction.
  - destruct (String.eqb_spec k "__proto__"); [contradiction | reflexivity].
Qed.

Lemma string_of_uint_head (d : Decimal.uint) :
  numeric_head (NilZero.string_of_uint d) = true.
Proof. destruct d; reflexivity. Qed.

Lemma number_to_string_head (n : number) :
  numeric_head (number_to_string n) = true.
Proof.
  destruct n as [| | | z]; try reflexivity.
  unfold number_to_string, NilZero.string_of_int.
  destruct (Z.to_int z) as [d | d]; [apply string_of_uint_head | reflexivity].
Qed.

Lemma numeric_head_not_key (k : string) :
  numeric_head k = true ->
  ~ In k (map fst searchQueryBuilder)
  /\ ~ In k object_prototype_functions
  /\ k <> "__proto__".
Proof.
  intros Hhead.
  assert (Hne : forall key : string, numeric_head key = false -> k <> key).
  { intros key Hkey ->. rewrite Hhead in Hkey. discriminate. }
  repeat split.
  - cbn. intros H.
    repeat destruct H as [H | H]; try contradiction;
      symmetry in H; revert H; now apply Hne.
  - cbn. intros H.
    repeat destruct H as [H | H]; try contradiction;
      symmetry in H; revert H; now apply Hne.
  - now apply Hne.
Qed.

(** A criterion that is [undefined], [null], a boolean or a number never
    compiles: its key is in neither table and the call of the missing
    builder throws. *)
Theorem buildSearchQuery_primitive_criterion (propName : string) :
  buildSearchQuery propName VUndefined = Throw TypeError
  /\ buildSearchQuery propName VNull = Throw TypeError
  /\ (forall b : bool, buildSearchQuery propName (VBool b) = Throw TypeError)
  /\ (forall n : number, buildSearchQuery propName (VNum n) = Throw TypeError).
Proof.
  split; [reflexivity|]. split; [reflexivity|]. split.
  - intros [|]; reflexivity.
  - intros n. unfold buildSearchQuery. cbn [to_string bind].
    destruct (numeric_head_not_key _ (number_to_string_head n)) as (H1 & H2 & H3).
    now apply compile_at_unknown_key.
Qed.

(** Every criterion object fails in [buildSearchQuery], whatever its
    properties, although the builders filed under [exists], [isempty],
    [eq], [ne] and [match] compile every object. *)
Theorem buildSearchQuery_object_never_reaches_builder
  (propName : string) (props : list (string * value)) :
  buildSearchQuery propName (VObj props) = Throw TypeError
  /\ Forall (fun k => exists compiled,
                compile_at k propName (VObj props) = Ok compiled)
       ["exists"; "isempty"; "eq"; "ne"; "match"].
Proof.
  split; [apply buildSearchQuery_object|].
  unfold compile_at, build_query, build_params.
  repeat match goal with
         | |- Forall _ (_ :: _) => constructor
         | |- Forall _ [] => constructor
         end; cbn.
  - eexists; reflexivity.
  - eexists; reflexivity.
  - destruct (own_prop "eq" props); eexists; reflexivity.
  - destruct (own_prop "ne" props); eexists; reflexivity.
  - destruct (own_prop "match" props); eexists; reflexivity.
Qed.

(** An array is coerced to the join of its items: the one-item arrays
    that name [eq], [ne] and [match] compile to the clause of that
    operator's query builder and bind [undefined] to that operator's
    parameter name. *)
Theorem buildSearchQuery_operator_array (propName : string) :
  let field := namedField [propName] in
  let eq_name := buildParamName ["f"; propName; "eq"] in
  let ne_name := buildParamName ["f"; propName; "ne"] in
  let match_name := buildParamName ["f"; normalizePropName propName; "m"] in
  buildSearchQuery propName (VArr [VStr "eq"])
  = Ok (expression [field; tag [paramRef [eq_name]]],
        [VStr eq_name; VUndefined])
  /\ buildSearchQuery propName (VArr [VStr "ne"])
     = Ok (negative [expression [field]; tag [paramRef [ne_name]]],
           [VStr ne_name; VUndefined])
  /\ buildSearchQuery propName (VArr [VStr "match"])
     = Ok (expression [field; matchAny [paramRef [match_name]]],
           [VStr match_name; VUndefined]).
Proof. split; [|split]; reflexivity. Qed.

Lemma buildParamName_inj (a b s t : string) :
  buildParamName ["f"; a; s] = buildParamName ["f"; b; t] ->
  a +:+ "_" +:+ s = b +:+ "_" +:+ t.
Proof.
  change (String "f" (String "_" (a +:+ "_" +:+ s))
          = String "f" (String "_" (b +:+ "_" +:+ t))
          -> a +:+ "_" +:+ s = b +:+ "_" +:+ t).
  now intros [= H].
Qed.

(** Two operator bindings carry the same parameter name only under the
    same operator and, up to the replacement of the union separator, the
    same property name; under [eq] and [ne] only for the same property
    name. *)
Theorem operator_names_coincide
  (k1 k2 p1 p2 : string) (e1 e2 : value) (c1 c2 name : string) (x1 x2 : value) :
  compile_at k1 p1 e1 = Ok (c1, [VStr name; x1]) ->
  compile_at k2 p2 e2 = Ok (c2, [VStr name; x2]) ->
  k1 = k2
  /\ normalizePropName p1 = normalizePropName p2
  /\ (k1 <> "match" -> p1 = p2).
Proof.
  intros H1%compile_at_bindings H2%compile_at_bindings.
  destruct H1 as [[_ [=]] | [(-> & v1 & _ & [= Hn1 _])
                 | [(-> & v1 & _ & [= Hn1 _]) | (-> & v1 & _ & [= Hn1 _])]]];
  destruct H2 as [[_ [=]] | [(-> & v2 & _ & [= Hn2 _])
                 | [(-> & v2 & _ & [= Hn2 _]) | (-> & v2 & _ & [= Hn2 _])]]];
  rewrite Hn1 in Hn2; apply buildParamName_inj in Hn2 as H.
  - apply suffix_inj in H. subst. tauto.
  - exfalso. revert H. now apply suffix_neq.
  - exfalso. revert H. now apply (long_suffix_neq _ _ "eq" "_m").
  - exfalso. revert H. now apply suffix_neq.
  - apply suffix_inj in H. subst. tauto.
  - exfalso. revert H. now apply (long_suffix_neq _ _ "ne" "_m").
  - exfalso. symmetry in H. revert H. now apply (long_suffix_neq _ _ "eq" "_m").
  - exfalso. symmetry in H. revert H. now apply (long_suffix_neq _ _ "ne" "_m").
  - apply suffix_inj in H. split; [reflexivity|]. split; [exact H | tauto].
Qed.

End CriterionShapes.

(** ** The parameter name of a field union *)

Section PropNames.

Lemma normalizePropName_append (a b : string) :
  normalizePropName (a +:+ b) = normalizePropName a +:+ normalizePropName b.
Proof.
  induction a as [|c a IH]; [reflexivity|].
  rewrite append_cons. cbn [normalizePropName]. rewrite IH.
  now rewrite append_cons.
Qed.

(** The normalised property name has the length of the property name and
    no union separator in it. *)
Theorem normalizePropName_no_separator (prop : string) :
  String.length (normalizePropName prop) = String.length prop
  /\ ~ In "|"%char (list_ascii_of_string (normalizePropName prop)).
Proof.
  induction prop as [|c rest [IHlen IHin]]; cbn; [tauto|].
  split; [now rewrite IHlen|].
  intros [Hc | Hin]; [|contradiction].
  destruct (Ascii.eqb_spec c "|") as [-> | Hne]; [discriminate | contradiction].
Qed.

(** Normalising is idempotent, and it leaves exactly the property names
    without a union separator unchanged. *)
Theorem normalizePropName_idempotent (prop : string) :
  normalizePropName (normalizePropName prop) = normalizePropName prop
  /\ (normalizePropName prop = prop
      <-> ~ In "|"%char (list_ascii_of_string prop)).
Proof.
  induction prop as [|c rest [IHidem IHfix]]; cbn; [tauto|].
  destruct (Ascii.eqb_spec c "|") as [-> | Hne].
  - split; [cbn; now rewrite IHidem|].
    split; [discriminate | intros H; exfalso; apply H; now left].
  - split.
    + destruct (Ascii.eqb_spec c "|"); [contradiction | now rewrite IHidem].
    + split.
      * intros [= Hrest] [Hc | Hin]; [now apply Hne | now apply IHfix].
      * intros H. f_equal. apply IHfix. intros Hin. apply H. now right.
Qed.

(** On a union of fields, written as the field names joined by the union
    separator, normalising joins the normalised names by underscores. *)
Theorem normalizePropName_union (names : list string) :
  normalizePropName (String.concat "|" names)
  = String.concat "_" (map normalizePropName names).
Proof.
  induction names as [|n rest IH]; [reflexivity|].
  destruct rest as [|m rest]; [reflexivity|].
  change (String.concat "|" (n :: m :: rest))
    with (n +:+ "|" +:+ String.concat "|" (m :: rest)).
  change (String.concat "_" (map normalizePropName (n :: m :: rest)))
    with (normalizePropName n +:+ "_"
          +:+ String.concat "_" (map normalizePropName (m :: rest))).
  rewrite !normalizePropName_append, IH. reflexivity.
Qed.

End PropNames.

(** ** The audiences of [login] *)

Section LoginAudience.
Import Jwt.

Lemma getAudience_default (d a : string) :
  d ∈ getAudience d a /\ NoDup (getAudience d a).
Proof.
  unfold getAudience. destruct (String.eqb_spec a d) as [-> | Hne]; cbn.
  - split; [apply list_elem_of_here | apply NoDup_singleton].
  - split; [apply list_elem_of_further, list_elem_of_here|].
    apply NoDup_cons. split; [|apply NoDup_singleton].
    intros Hin%list_elem_of_singleton. contradiction.
Qed.

(** The audiences [login] fetches metadata for always include the default
    audience and never repeat one; an absent or empty audience gives the
    default audience alone, any other audience comes first. *)
Theorem login_metadataAudience_cases (d : string) (_a : option string) :
  d ∈ login_metadataAudience d _a
  /\ NoDup (login_metadataAudience d _a)
  /\ (_a = None \/ _a = Some EmptyString -> login_metadataAudience d _a = [d])
  /\ (forall a, _a = Some a -> a <> EmptyString ->
       head (login_metadataAudience d _a) = Some a).
Proof.
  unfold login_metadataAudience.
  destruct (getAudience_default d (or_default _a d)) as (Hd & Hnodup).
  split; [exact Hd|]. split; [exact Hnodup|]. split.
  - intros [-> | ->]; cbn; unfold getAudience; now rewrite String.eqb_refl.
  - intros a -> Hne. destruct a as [|c a]; [contradiction|].
    cbn [or_default]. unfold getAudience.
    now destruct (negb _).
Qed.

End LoginAudience.

(** ** The report of the account initialisers *)

Section Report.
Import Users.

Lemma count_users (users : list inspection) (c : counters) :
  fold_left count_user users c
  = {| registered := registered c + fulfilled users;
       errors := errors c ++ rejections users |}.
Proof.
  revert c. induction users as [|user rest IH]; intros [n errs].
  - cbn. now rewrite Nat.add_0_r, app_nil_r.
  - cbn [fold_left]. rewrite IH. destruct user as [v | r]; cbn.
    + f_equal. unfold fulfilled. cbn. lia.
    + f_equal. now rewrite <- app_assoc.
Qed.

Lemma warn_errors (errs : list reason) (log : list log_entry) :
  fold_left warn_error errs log
  = log ++ map (fun err => Warn (stack err))
               (List.filter (fun err => not_403 (statusCode err)) errs).
Proof.
  revert log. induction errs as [|err rest IH]; intros log; cbn.
  - now rewrite app_nil_r.
  - rewrite IH. unfold warn_error.
    destruct (not_403 (statusCode err)); cbn; [|reflexivity].
    now rewrite <- app_assoc.
Qed.

Lemma fulfilled_rejections (users : list inspection) :
  fulfilled users + length (rejections users) = length users.
Proof.
  unfold fulfilled, rejections.
  induction users as [|[v | r] rest IH]; [reflexivity | |].
  - cbn [List.filter flat_map app length]. lia.
  - cbn [List.filter flat_map app length]. lia.
Qed.

(** The info line comes first and its three numbers add up: the fulfilled
    registrations and the rejected ones make the total. *)
Theorem reportStats_counts (format : string) (users : list inspection) :
  exists (ok failed : nat) (warnings : list log_entry),
    reportStats format users
    = Info format [ok; length users; failed] :: warnings
    /\ ok = fulfilled users
    /\ failed = length (rejections users)
    /\ ok + failed = length users.
Proof.
  unfold reportStats. rewrite count_users, warn_errors. cbn.
  do 3 eexists. split; [reflexivity|].
  split; [reflexivity|]. split; [reflexivity|].
  apply fulfilled_rejections.
Qed.

(** After the info line the log holds one warning for each rejection whose
    status code is not 403, with its stack, in the order of the
    registrations; rejections with status 403 are not reported. *)
Theorem reportStats_warnings (format : string) (users : list inspection) :
  tail (reportStats format users)
  = map (fun err => Warn (stack err))
        (List.filter (fun err => not_403 (statusCode err)) (rejections users)).
Proof.
  unfold reportStats. rewrite count_users, warn_errors. reflexivity.
Qed.

End Report.

(** ** Instances under the helpers of the specification *)

Section Instances.
Import SpecExpressions Jwt.

Lemma compile_at_operator_key_witness :
  compile_at "match" "firstName" (VObj [("match", VStr "Johhny")])
  = Ok ("@firstName:($f_firstName_m*)", [VStr "f_firstName_m"; VStr "Johhny"])
  /\ In "match" ["gte"; "lte"; "exists"; "isempty"; "eq"; "ne"; "match"].
Proof.
  split; [reflexivity|].
  apply (compile_at_operator_key "match" "firstName"
           (VObj [("match", VStr "Johhny")])
           ("@firstName:($f_firstName_m*)", [VStr "f_firstName_m"; VStr "Johhny"])).
  reflexivity.
Defined.

Lemma compile_at_binding_witness :
  compile_at "exists" "age" VNull = Ok ("-@age:" +:+ EMPTY_VALUE, [])
  /\ ((In "exists" ["gte"; "lte"; "exists"; "isempty"] /\ @nil value = [])
      \/ ("exists" = "eq" /\ exists v, get_prop VNull Keq = Ok v
           /\ [] = [VStr (buildParamName ["f"; "age"; "eq"]); v])
      \/ ("exists" = "ne" /\ exists v, get_prop VNull Kne = Ok v
           /\ [] = [VStr (buildParamName ["f"; "age"; "ne"]); v])
      \/ ("exists" = "match" /\ exists v, get_prop VNull Kmatch = Ok v
           /\ [] = [VStr (buildParamName ["f"; normalizePropName "age"; "m"]); v])).
Proof.
  split; [reflexivity|].
  apply (compile_at_binding "exists" "age" VNull ("-@age:" +:+ EMPTY_VALUE) []).
  reflexivity.
Defined.

Lemma operator_names_coincide_witness :
  compile_at "match" "a|b" (VObj [("match", VStr "Joe")])
  = Ok ("@a|b:($f_a_b_m*)", [VStr "f_a_b_m"; VStr "Joe"])
  /\ compile_at "match" "a_b" (VObj [("match", VStr "Joe")])
     = Ok ("@a_b:($f_a_b_m*)", [VStr "f_a_b_m"; VStr "Joe"])
  /\ normalizePropName "a|b" = normalizePropName "a_b".
Proof.
  split; [reflexivity|]. split; [reflexivity|].
  apply (operator_names_coincide "match" "match" "a|b" "a_b"
           (VObj [("match", VStr "Joe")]) (VObj [("match", VStr "Joe")])
           "@a|b:($f_a_b_m*)" "@a_b:($f_a_b_m*)" "f_a_b_m"
           (VStr "Joe") (VStr "Joe"));
    reflexivity.
Defined.

Lemma login_metadataAudience_cases_witness :
  login_metadataAudience "*.localhost" (Some EmptyString) = ["*.localhost"]
  /\ head (login_metadataAudience "*.localhost" (Some "api")) = Some "api".
Proof.
  split.
  - apply (login_metadataAudience_cases "*.localhost" (Some EmptyString)).
    right. reflexivity.
  - apply (login_metadataAudience_cases "*.localhost" (Some "api") : _ /\ _ /\ _ /\ _);
      [reflexivity | discriminate].
Defined.

End Instances.

(** ** Array criteria *)

Section ArrayCriteria.
Context {E : Expressions}.

Lemma join_with_outcome (sep : string) (items : list value) :
  Forall (fun x => text_or_type_error (to_string x)) items ->
  text_or_type_error (join_with to_string sep items).
Proof.
  induction 1 as [|x rest Hx Hrest IH]; [left; now eexists|].
  assert (Hitem : text_or_type_error (join_item to_string x)).
  { destruct x; try exact Hx; left; now eexists. }
  destruct rest as [|y rest]; [exact Hitem|].
  change (join_with to_string sep (x :: y :: rest))
    with (bind (join_item to_string x) (fun s =>
          bind (join_with to_string sep (y :: rest))
               (fun r => Ok (s +:+ sep +:+ r)))).
  destruct Hitem as [[s ->] | ->]; [|now right].
  destruct IH as [[r ->] | ->]; [left; now eexists | now right].
Qed.

Lemma to_string_outcome (v : value) : text_or_type_error (to_string v).
Proof.
  revert v. fix IH 1. intros [| | b | n | s | items | props].
  1-5: left; now eexists.
  - apply join_with_outcome.
    induction items as [|x rest IHitems]; constructor; [apply IH | exact IHitems].
  - cbn. destruct (own_prop "toString" props); [now right | left; now eexists].
Qed.

Lemma has_comma_append (a b : string) : has_comma (a +:+ "," +:+ b) = true.
Proof.
  induction a as [|c a IH]; [reflexivity|].
  rewrite append_cons. cbn. rewrite IH. apply orb_true_r.
Qed.

Lemma has_comma_not_key (k : string) :
  has_comma k = true ->
  ~ In k (map fst searchQueryBuilder)
  /\ ~ In k object_prototype_functions
  /\ k <> "__proto__".
Proof.
  intros Hcomma.
  assert (Hne : forall key : string, has_comma key = false -> k <> key).
  { intros key Hkey ->. rewrite Hcomma in Hkey. discriminate. }
  repeat split.
  - cbn. intros H.
    repeat destruct H as [H | H]; try contradiction;
      symmetry in H; revert H; now apply Hne.
  - cbn. intros H.
    repeat destruct H as [H | H]; try contradiction;
      symmetry in H; revert H; now apply Hne.
  - now apply Hne.
Qed.

(** Of the array criteria only those with one item can compile: the empty
    array and every array with two or more items end in a [TypeError]. *)
Theorem buildSearchQuery_array_length (propName : string) (items : list value) :
  length items <> 1 ->
  buildSearchQuery propName (VArr items) = Throw TypeError.
Proof.
  intros Hlen. destruct items as [|x [|y rest]]; [reflexivity | now cbn in Hlen |].
  unfold buildSearchQuery. cbn [to_string].
  change (join_with to_string "," (x :: y :: rest))
    with (bind (join_item to_string x) (fun s =>
          bind (join_with to_string "," (y :: rest))
               (fun r => Ok (s +:+ "," +:+ r)))).
  assert (Hx : text_or_type_error (join_item to_string x)).
  { destruct x; try apply to_string_outcome; left; now eexists. }
  destruct Hx as [[s ->] | ->]; [|reflexivity].
  destruct (to_string_outcome (VArr (y :: rest))) as [[r Hr] | Hr];
    cbn [to_string] in Hr; cbn [bind]; rewrite Hr; [|reflexivity].
  cbn [bind].
  destruct (has_comma_not_key _ (has_comma_append s r)) as (H1 & H2 & H3).
  now apply compile_at_unknown_key.
Qed.

End ArrayCriteria.

Lemma buildSearchQuery_array_length_witness :
  length [VStr "gte"; VStr "lte"] <> 1
  /\ buildSearchQuery (E := SpecExpressions.spec_expressions) "age"
       (VArr [VStr "gte"; VStr "lte"]) = Throw TypeError.
Proof.
  split; [discriminate|].
  apply (buildSearchQuery_array_length (E := SpecExpressions.spec_expressions)
           "age" [VStr "gte"; VStr "lte"]).
  discriminate.
Defined.
